(** * Evolution of Todo API: the application module [app/main.py]

    A shallow embedding of the FastAPI application object built in
    [src/app/main.py]: the CORS configuration, the request logging
    middleware, the startup hook, the two exception handlers and the three
    system endpoints, together with the part of the Starlette/FastAPI
    request pipeline that the module's registrations plug into.

    Python's effects are made explicit.  A coroutine of the module is a
    value of [Eff A]: the list of observable events it emits (log records
    and calls into the database collaborator) paired with either the value
    it returns or the exception it raises. *)

From stdpp Require Import gmap strings list pretty.

Open Scope string_scope.
Open Scope Z_scope.

Set Warnings "-register-all".

(** ** Values *)

(** JSON-serialisable Python values; a [dict] literal keeps the order in
    which its keys are written. *)
Inductive Json : Type :=
| JNull
| JBool (b : bool)
| JNum (n : Z)
| JStr (s : string)
| JArr (items : list Json)
| JObj (fields : list (string * Json)).

(** An exception instance: [exc_mro] is [type(exc).__mro__] as class names,
    most specific class first; [exc_str] is [str(exc)]. *)
Record PyExc : Type := mkExc {
  exc_mro : list string;
  exc_str : string
}.

(** [isinstance(exc, cls)] *)
Definition isinstance (e : PyExc) (cls : string) : bool :=
  existsb (String.eqb cls) (exc_mro e).

(** [starlette.requests.Request], as far as the module reads it:
    [request.method], [request.url.path] and the header list (names in
    lower case, the way the ASGI scope carries them). *)
Record Request : Type := mkRequest {
  method : string;
  url_path : string;
  req_headers : list (string * string)
}.

Inductive Content : Type :=
| JsonContent (j : Json)      (* JSONResponse *)
| TextContent (s : string).   (* PlainTextResponse *)

Record Response : Type := mkResponse {
  status_code : Z;
  headers : list (string * string);
  content : Content
}.

(** [fastapi.status] *)
Definition HTTP_200_OK : Z := 200.
Definition HTTP_500_INTERNAL_SERVER_ERROR : Z := 500.
Definition HTTP_503_SERVICE_UNAVAILABLE : Z := 503.

(** [JSONResponse(status_code=..., content=...)] *)
Definition JSONResponse (code : Z) (j : Json) : Response :=
  {| status_code := code; headers := []; content := JsonContent j |}.

(** ** Effects *)

Inductive Level : Type := INFO | ERROR.

(** Calls into the collaborator module [.database] and the engine it
    hands out. *)
Inductive DbCall : Type :=
| GetEngine
| InitDb
| Connect
| Execute (sql : string)
| Close.

Inductive Event : Type :=
| LogRecord (lvl : Level) (msg : string)
| DbEvent (c : DbCall).

Inductive Result (A : Type) : Type :=
| Return (a : A)
| Raise (e : PyExc).
Arguments Return {A} a.
Arguments Raise {A} e.

Definition Eff (A : Type) : Type := list Event * Result A.

Definition ret {A} (a : A) : Eff A := ([], Return a).

Definition bind {A B} (m : Eff A) (k : A -> Eff B) : Eff B :=
  match m with
  | (w, Return a) => let (w', r) := k a in ((w ++ w')%list, r)
  | (w, Raise e) => (w, Raise e)
  end.

Definition raise {A} (e : PyExc) : Eff A := ([], Raise e).

Definition emit (ev : Event) : Eff unit := ([ev], Return tt).

(** [try: m  except Exception as e: h e]; an exception that is not an
    instance of [Exception] passes through the clause. *)
Definition try_except_Exception {A} (m : Eff A) (h : PyExc -> Eff A) : Eff A :=
  match m with
  | (w, Return a) => (w, Return a)
  | (w, Raise e) =>
      if isinstance e "Exception"
      then let (w', r) := h e in ((w ++ w')%list, r)
      else (w, Raise e)
  end.

Declare Scope eff_scope.
Delimit Scope eff_scope with eff.
Notation "x <- m ;; k" := (bind m (fun x => k))
  (at level 100, m at next level, right associativity) : eff_scope.
Notation "m ;; k" := (bind m (fun _ => k))
  (at level 100, right associativity) : eff_scope.
Open Scope eff_scope.

Definition events {A} (m : Eff A) : list Event := fst m.
Definition result {A} (m : Eff A) : Result A := snd m.

(** [logger.info] and [logger.error]; [logging.basicConfig(level=INFO)]
    lets both levels through. *)
Definition logger_info (msg : string) : Eff unit := emit (LogRecord INFO msg).
Definition logger_error (msg : string) : Eff unit := emit (LogRecord ERROR msg).

(** [s * n] on strings *)
Fixpoint str_repeat (s : string) (n : nat) : string :=
  match n with
  | O => ""
  | S n' => s +:+ str_repeat s n'
  end.

(** ** CORS configuration (lines 24-36) *)

Record CORSConfig : Type := mkCORS {
  allow_origins : list string;
  allow_credentials : bool;
  allow_methods : list string;
  allow_headers : list string
}.

Definition cors_config : CORSConfig :=
  {| allow_origins :=
       [ "http://localhost:3000";
         "http://127.0.0.1:3000";
         "https://todo-evolution-liart.vercel.app";
         "https://todo-evolution.vercel.app";
         "https://evaluation-todo.vercel.app" ];
     allow_credentials := true;
     allow_methods := ["GET"; "POST"; "PUT"; "PATCH"; "DELETE"; "OPTIONS"];
     allow_headers := ["*"] |}.

(** ** Request logging middleware (lines 40-46) *)

Definition log_requests (request : Request)
    (call_next : Request -> Eff Response) : Eff Response :=
  logger_info ("→ " +:+ method request +:+ " " +:+ url_path request) ;;
  response <- call_next request ;;
  logger_info ("← " +:+ method request +:+ " " +:+ url_path request
               +:+ " → " +:+ pretty (status_code response)) ;;
  ret response.

(** ** Exception handlers (lines 80-105) *)

Definition database_exception_handler (request : Request) (exc : PyExc)
    : Eff Response :=
  ret (JSONResponse HTTP_503_SERVICE_UNAVAILABLE
         (JObj [("error",
                 JObj [("code", JStr "DATABASE_ERROR");
                       ("message",
                        JStr "A database error occurred. Please try again later.")])])).

Definition general_exception_handler (request : Request) (exc : PyExc)
    : Eff Response :=
  ret (JSONResponse HTTP_500_INTERNAL_SERVER_ERROR
         (JObj [("error",
                 JObj [("code", JStr "INTERNAL_SERVER_ERROR");
                       ("message", JStr "An unexpected error occurred.")])])).

(** ** System endpoints (lines 111-135) *)

Definition root : Eff Json :=
  ret (JObj [("service", JStr "Evolution of Todo API");
             ("version", JStr "0.1.0");
             ("status", JStr "running");
             ("docs", JStr "/docs");
             ("health", JStr "/health")]).

Definition health_check : Eff Json :=
  ret (JObj [("status", JStr "ok")]).

Definition ping : Eff Json :=
  ret (JObj [("ping", JStr "pong"); ("cors", JStr "enabled")]).

(** ** Startup hook (lines 49-77) *)

(** What [get_engine()] hands out, as far as the hook reads it:
    [engine.url.database], which is a string or [None]. *)
Record Engine : Type := mkEngine {
  url_database : option string
}.

(** The collaborator module [.database] and the driver behind it are not
    part of this file.  A [Database] fixes what each of their calls does
    when the hook makes it: return, or raise. *)
Record Database : Type := mkDatabase {
  get_engine_outcome : Result Engine;        (* get_engine() *)
  init_db_outcome : Result unit;             (* init_db() *)
  connect_outcome : Result unit;             (* engine.connect() *)
  execute_outcome : string -> Result unit;   (* conn.execute(text(sql)) *)
  close_outcome : Result unit                (* conn.__exit__, closing it *)
}.

Definition call {A} (c : DbCall) (outcome : Result A) : Eff A :=
  ([DbEvent c], outcome).

(** [format(v)] of an optional string inside an f-string *)
Definition fmt_opt (v : option string) : string :=
  match v with
  | Some s => s
  | None => "None"
  end.

(** [with enter as _: body], for a context manager whose [__exit__] does
    not swallow exceptions: [exit] runs on both ways out of [body]. *)
Definition with_ {A} (enter : Eff unit) (exit : Eff unit) (body : Eff A)
    : Eff A :=
  enter ;;
  match body with
  | (w, Return a) => (w, Return tt) ;; exit ;; ret a
  | (w, Raise e) => (w, Return tt) ;; exit ;; raise e
  end.

Definition startup_event (db : Database) : Eff unit :=
  logger_info (str_repeat "=" 60) ;;
  logger_info "Starting database initialization..." ;;
  try_except_Exception
    (engine <- call GetEngine (get_engine_outcome db) ;;
     logger_info ("✓ Database engine created: "
                  +:+ fmt_opt (url_database engine)) ;;
     call InitDb (init_db_outcome db) ;;
     logger_info "✓ Database tables initialized successfully" ;;
     with_ (call Connect (connect_outcome db))
           (call Close (close_outcome db))
       (call (Execute "SELECT 1") (execute_outcome db "SELECT 1") ;;
        logger_info "✓ Database connection verified") ;;
     logger_info (str_repeat "=" 60) ;;
     logger_info "Database initialization complete!" ;;
     logger_info (str_repeat "=" 60))
    (fun e =>
       logger_error (str_repeat "=" 60) ;;
       logger_error ("✗ Database initialization FAILED: " +:+ exc_str e) ;;
       logger_error (str_repeat "=" 60) ;;
       raise e).

(** ** The framework around the module

    What follows is not code of [main.py] but the behaviour of the
    Starlette/FastAPI objects that its decorators and calls configure. *)

(** *** Headers *)

Definition get_header (name : string) (hs : list (string * string))
    : option string :=
  snd <$> find (fun kv => String.eqb (fst kv) name) hs.

Fixpoint set_header (name value : string) (hs : list (string * string))
    : list (string * string) :=
  match hs with
  | [] => [(name, value)]
  | (k, v) :: rest =>
      if String.eqb k name then (name, value) :: rest
      else (k, v) :: set_header name value rest
  end.

Definition add_vary_header (value : string) (hs : list (string * string))
    : list (string * string) :=
  match get_header "vary" hs with
  | Some existing => set_header "vary" (existing +:+ ", " +:+ value) hs
  | None => set_header "vary" value hs
  end.

(** *** [CORSMiddleware] *)

Definition allow_all_origins (cfg : CORSConfig) : bool :=
  existsb (String.eqb "*") (allow_origins cfg).

Definition allow_all_headers (cfg : CORSConfig) : bool :=
  existsb (String.eqb "*") (allow_headers cfg).

(** [CORSMiddleware.is_allowed_origin]; the module passes no
    [allow_origin_regex], which leaves the wildcard test and the
    membership test. *)
Definition is_allowed_origin (cfg : CORSConfig) (origin : string) : bool :=
  allow_all_origins cfg || existsb (String.eqb origin) (allow_origins cfg).

Definition PlainTextResponse (text : string) (code : Z)
    (hs : list (string * string)) : Response :=
  {| status_code := code; headers := hs; content := TextContent text |}.

(** [CORSMiddleware.preflight_response], along the branches that the
    module's arguments select: no wildcard among the origins, so the
    allowed origin is echoed and [Vary: Origin] is set; a wildcard among
    the headers, so the requested headers are echoed unchecked;
    credentials on; [max_age] left at its default of 600. *)
Definition preflight_response (cfg : CORSConfig)
    (request_headers : list (string * string)) : Response :=
  let requested_origin := default "" (get_header "origin" request_headers) in
  let requested_method :=
    default "" (get_header "access-control-request-method" request_headers) in
  let hs :=
    [("vary", "Origin");
     ("access-control-allow-methods", String.concat ", " (allow_methods cfg));
     ("access-control-max-age", "600");
     ("access-control-allow-credentials", "true")] in
  let origin_ok := is_allowed_origin cfg requested_origin in
  let method_ok := existsb (String.eqb requested_method) (allow_methods cfg) in
  let hs :=
    if origin_ok
    then set_header "access-control-allow-origin" requested_origin hs
    else hs in
  let hs :=
    match get_header "access-control-request-headers" request_headers with
    | Some requested => set_header "access-control-allow-headers" requested hs
    | None => hs
    end in
  let failures :=
    ((if origin_ok then [] else ["origin"])
     ++ (if method_ok then [] else ["method"]))%list in
  match failures with
  | [] => PlainTextResponse "OK" 200 hs
  | _ => PlainTextResponse ("Disallowed CORS " +:+ String.concat ", " failures)
           400 hs
  end.

(** [CORSMiddleware.send]: the headers put on the response of a
    non-preflight request that carries an [Origin] header, along the same
    branches. *)
Definition simple_response_headers (cfg : CORSConfig) (origin : string)
    (hs : list (string * string)) : list (string * string) :=
  let hs := set_header "access-control-allow-credentials" "true" hs in
  if is_allowed_origin cfg origin
  then add_vary_header "Origin"
         (set_header "access-control-allow-origin" origin hs)
  else hs.

Definition Middleware : Type :=
  (Request -> Eff Response) -> Request -> Eff Response.

Definition CORSMiddleware (cfg : CORSConfig) : Middleware :=
  fun app request =>
    match get_header "origin" (req_headers request) with
    | None => app request
    | Some origin =>
        if String.eqb (method request) "OPTIONS"
           && bool_decide (is_Some (get_header "access-control-request-method"
                                      (req_headers request)))
        then ret (preflight_response cfg (req_headers request))
        else
          response <- app request ;;
          ret {| status_code := status_code response;
                 headers := simple_response_headers cfg origin
                              (headers response);
                 content := content response |}
    end.

(** [@app.middleware("http")]: the decorated function becomes a middleware
    whose [call_next] is the rest of the stack. *)
Definition http_middleware
    (dispatch : Request -> (Request -> Eff Response) -> Eff Response)
    : Middleware :=
  fun app request => dispatch request app.

(** *** Exception handler lookup *)

Abbreviation Handler := (Request -> PyExc -> Eff Response).

(** [_lookup_exception_handler]: the first class of the exception's MRO
    that has a handler decides. *)
Fixpoint lookup_mro (handlers : gmap string Handler) (mro : list string)
    : option Handler :=
  match mro with
  | [] => None
  | cls :: rest =>
      match handlers !! cls with
      | Some h => Some h
      | None => lookup_mro handlers rest
      end
  end.

Definition lookup_exception_handler (handlers : gmap string Handler)
    (exc : PyExc) : option Handler :=
  lookup_mro handlers (exc_mro exc).

(** [ExceptionMiddleware], innermost: translates the exceptions it has a
    handler for and re-raises the others. *)
Definition ExceptionMiddleware (handlers : gmap string Handler) : Middleware :=
  fun app request =>
    try_except_Exception (app request)
      (fun exc =>
         match lookup_exception_handler handlers exc with
         | Some handler => handler request exc
         | None => raise exc
         end).

(** What the server sees of one request: the response that went out, if
    any, and the exception that came out of the application, if any. *)
Record Outcome : Type := mkOutcome {
  sent : option Response;
  raised : option PyExc
}.

(** [ServerErrorMiddleware], outermost, with [debug] off as
    [FastAPI(...)] leaves it: answers with the handler's response and then
    raises the exception again for the server to log. *)
Definition ServerErrorMiddleware (handler : option Handler)
    (app : Request -> Eff Response) (request : Request)
    : list Event * Outcome :=
  match app request with
  | (w, Return response) => (w, {| sent := Some response; raised := None |})
  | (w, Raise exc) =>
      if isinstance exc "Exception" then
        let answer :=
          match handler with
          | Some h => h request exc
          | None => ret (PlainTextResponse "Internal Server Error" 500 [])
          end in
        match answer with
        | (w', Return response) =>
            ((w ++ w')%list, {| sent := Some response; raised := Some exc |})
        | (w', Raise exc') =>
            ((w ++ w')%list, {| sent := None; raised := Some exc' |})
        end
      else (w, {| sent := None; raised := Some exc |})
  end.

(** *** Routing *)

Record Route : Type := mkRoute {
  path_matches : string -> bool;
  methods : list string;
  endpoint : Request -> Eff Response
}.

(** [@app.get(path)]: a route for GET on exactly [path]; the value the
    endpoint returns is sent as a JSON response with status 200. *)
Definition get_route (path : string) (f : Eff Json) : Route :=
  {| path_matches := String.eqb path;
     methods := ["GET"];
     endpoint := fun _ => body <- f ;; ret (JSONResponse HTTP_200_OK body) |}.

Definition full_match (request : Request) (r : Route) : bool :=
  path_matches r (url_path request)
  && existsb (String.eqb (method request)) (methods r).

(** A request that [CORSMiddleware] answers itself, without calling the
    rest of the stack. *)
Definition is_preflight (request : Request) : bool :=
  match get_header "origin" (req_headers request) with
  | None => false
  | Some _ =>
      String.eqb (method request) "OPTIONS"
      && bool_decide (is_Some (get_header "access-control-request-method"
                                 (req_headers request)))
  end.

(** *** Lifespan *)

Inductive ServerState : Type := Serving | StartupFailed.

(** The lifespan protocol runs the startup hook before the server accepts
    a connection; a hook that raises makes the server exit. *)
Definition lifespan_startup (db : Database) : list Event * ServerState :=
  match startup_event db with
  | (w, Return _) => (w, Serving)
  | (w, Raise _) => (w, StartupFailed)
  end.

(** ** The application object *)

Section Application.

(** Handlers that FastAPI and Starlette install on their own, by
    exception class. *)
Variable framework_handlers : gmap string Handler.

(** Routes that are in the table before the system endpoints are added:
    the documentation routes of [FastAPI(...)] and those of
    [tasks_router] (line 108). *)
Variable included_routes : list Route.

(** What the router does with a request that no route matches in full. *)
Variable unmatched : Request -> Eff Response.

(** [app.exception_handlers] after lines 80 and 94 *)
Definition exception_handlers : gmap string Handler :=
  <["Exception" := general_exception_handler]>
    (<["SQLAlchemyError" := database_exception_handler]>
       framework_handlers).

(** [app.router.routes] after lines 108-135 *)
Definition routes : list Route :=
  (included_routes
   ++ [get_route "/" root;
       get_route "/health" health_check;
       get_route "/api/ping" ping])%list.

Definition router (request : Request) : Eff Response :=
  match find (full_match request) routes with
  | Some r => endpoint r request
  | None => unmatched request
  end.

(** [app.user_middleware]: [add_middleware] puts the new entry in front,
    so the logging middleware, added last, is the outer one. *)
Definition user_middleware : list Middleware :=
  [http_middleware log_requests; CORSMiddleware cors_config].

(** [build_middleware_stack]: the handler registered for [Exception]
    goes to [ServerErrorMiddleware], all others to
    [ExceptionMiddleware]. *)
Definition inner_app : Request -> Eff Response :=
  ExceptionMiddleware (delete "Exception" exception_handlers) router.

Definition app (request : Request) : list Event * Outcome :=
  ServerErrorMiddleware (exception_handlers !! "Exception")
    (fold_right (fun (mw : Middleware) inner => mw inner)
                inner_app user_middleware)
    request.

(** The server hands a request to the application only when startup
    has completed. *)
Definition serve (st : ServerState) (request : Request)
    : option (list Event * Outcome) :=
  match st with
  | Serving => Some (app request)
  | StartupFailed => None
  end.

End Application.

(** ** Specification vocabulary *)

(** [sub] occurs in [s]. *)
Definition contains (s sub : string) : Prop :=
  exists before after, s = before +:+ sub +:+ after.

(** The two lines the logging middleware writes. *)
Definition line_before (request : Request) : Event :=
  LogRecord INFO ("→ " +:+ method request +:+ " " +:+ url_path request).

Definition line_after (request : Request) (code : Z) : Event :=
  LogRecord INFO ("← " +:+ method request +:+ " " +:+ url_path request
                  +:+ " → " +:+ pretty code).

Definition is_log (ev : Event) : bool :=
  match ev with
  | LogRecord _ _ => true
  | DbEvent _ => false
  end.

(** The database calls of a run, in order. *)
Fixpoint db_calls (w : list Event) : list DbCall :=
  match w with
  | [] => []
  | DbEvent c :: rest => c :: db_calls rest
  | LogRecord _ _ :: rest => db_calls rest
  end.

(** The three steps of the startup hook, as calls: the engine handle, the
    schema, and the probe on a connection that is opened and closed
    around it. *)
Definition startup_steps : list DbCall :=
  [GetEngine; InitDb; Connect; Execute "SELECT 1"; Close].

(** Every step of the startup hook returns. *)
Definition startup_ok (db : Database) : Prop :=
  (exists engine, get_engine_outcome db = Return engine)
  /\ init_db_outcome db = Return tt
  /\ connect_outcome db = Return tt
  /\ execute_outcome db "SELECT 1" = Return tt
  /\ close_outcome db = Return tt.

(** [step_raises db e]: some step of the startup hook raises [e], the
    steps before it having returned. *)
Inductive step_raises (db : Database) (e : PyExc) : Prop :=
| raises_get_engine :
    get_engine_outcome db = Raise e ->
    step_raises db e
| raises_init_db engine :
    get_engine_outcome db = Return engine ->
    init_db_outcome db = Raise e ->
    step_raises db e
| raises_connect engine :
    get_engine_outcome db = Return engine ->
    init_db_outcome db = Return tt ->
    connect_outcome db = Raise e ->
    step_raises db e
| raises_execute engine :
    get_engine_outcome db = Return engine ->
    init_db_outcome db = Return tt ->
    connect_outcome db = Return tt ->
    execute_outcome db "SELECT 1" = Raise e ->
    close_outcome db = Return tt ->
    step_raises db e
| raises_close engine :
    get_engine_outcome db = Return engine ->
    init_db_outcome db = Return tt ->
    connect_outcome db = Return tt ->
    close_outcome db = Raise e ->
    step_raises db e.

(** The line the hook logs for a failure. *)
Definition failure_line (e : PyExc) : Event :=
  LogRecord ERROR ("✗ Database initialization FAILED: " +:+ exc_str e).

(** No route that is in the table before the system endpoints takes the
    request. *)
Definition not_shadowed (included_routes : list Route) (request : Request)
    : bool :=
  forallb (fun r => negb (full_match request r)) included_routes.

(** The two error bodies. *)
Definition error_body (code message : string) : Content :=
  JsonContent
    (JObj [("error", JObj [("code", JStr code); ("message", JStr message)])]).

(** The framework has no handler of its own for any class of [exc]; its
    entries for the two classes the module registers are replaced by the
    module's. *)
Definition no_framework_handler (framework_handlers : gmap string Handler)
    (exc : PyExc) : bool :=
  forallb
    (fun cls =>
       String.eqb cls "Exception" || String.eqb cls "SQLAlchemyError"
       || match framework_handlers !! cls with
          | Some _ => false
          | None => true
          end)
    (exc_mro exc).


(** The origin and the method a preflight request asks for. *)
Definition requested_origin (request_headers : list (string * string))
    : string :=
  default "" (get_header "origin" request_headers).

Definition requested_method (request_headers : list (string * string))
    : string :=
  default "" (get_header "access-control-request-method" request_headers).

(** The line that closes a successful run of the startup hook. *)
Definition completion_line : Event :=
  LogRecord INFO "Database initialization complete!".


(** ** Sample inputs *)

Module Sample.

Definition OperationalError : PyExc :=
  mkExc ["OperationalError"; "DBAPIError"; "StatementError";
         "SQLAlchemyError"; "HasDescriptionCode"; "Exception";
         "BaseException"; "object"]
        "could not connect to server".

Definition ValueError : PyExc :=
  mkExc ["ValueError"; "Exception"; "BaseException"; "object"]
        "invalid literal".

Definition HTTPException : PyExc :=
  mkExc ["HTTPException"; "Exception"; "BaseException"; "object"]
        "Not Found".

(** A framework table with one default handler. *)
Definition framework_handlers : gmap string Handler :=
  {[ "HTTPException" :=
       fun (_ : Request) (exc : PyExc) =>
         ret (JSONResponse 404 (JObj [("detail", JStr (exc_str exc))])) ]}.

(** Two task routes: listing fails in the driver, creation fails in
    the endpoint's own code. *)
Definition included_routes : list Route :=
  [ {| path_matches := String.eqb "/api/tasks";
       methods := ["GET"];
       endpoint := fun _ =>
         call (Execute "SELECT * FROM tasks") (Raise OperationalError) |};
    {| path_matches := String.eqb "/api/tasks";
       methods := ["POST"];
       endpoint := fun _ => raise ValueError |} ].

Definition unmatched : Request -> Eff Response :=
  fun _ => raise HTTPException.

Definition list_tasks : Request := mkRequest "GET" "/api/tasks" [].
Definition create_task : Request :=
  mkRequest "POST" "/api/tasks" [("origin", "http://localhost:3000")].
Definition get_health : Request :=
  mkRequest "GET" "/health" [("origin", "http://localhost:3000")].
Definition get_ping : Request := mkRequest "GET" "/api/ping" [].
Definition get_root : Request := mkRequest "GET" "/" [].

Definition db_up : Database :=
  mkDatabase (Return (mkEngine (Some "todo"))) (Return tt) (Return tt)
             (fun _ => Return tt) (Return tt).

Definition db_down : Database :=
  mkDatabase (Return (mkEngine (Some "todo"))) (Raise OperationalError)
             (Return tt) (fun _ => Return tt) (Return tt).

End Sample.

(** Further inputs: edge cases of the stack and of the startup hook. *)
Module Scenario.

Definition KeyboardInterrupt : PyExc :=
  mkExc ["KeyboardInterrupt"; "BaseException"; "object"] "".

(** A route table in which a task route answers GET /health itself, and
    another one is interrupted. *)
Definition included_routes : list Route :=
  [ {| path_matches := String.eqb "/health";
       methods := ["GET"];
       endpoint := fun _ =>
         ret (JSONResponse 200 (JObj [("status", JStr "degraded")])) |};
    {| path_matches := String.eqb "/api/tasks";
       methods := ["DELETE"];
       endpoint := fun _ => raise KeyboardInterrupt |};
    {| path_matches := String.eqb "/api/tasks";
       methods := ["GET"];
       endpoint := fun _ =>
         call (Execute "SELECT * FROM tasks")
              (Raise Sample.OperationalError) |};
    {| path_matches := String.eqb "/api/tasks";
       methods := ["POST"];
       endpoint := fun _ => raise Sample.ValueError |} ].

Definition get_health : Request := mkRequest "GET" "/health" [].
Definition delete_tasks : Request := mkRequest "DELETE" "/api/tasks" [].

Definition list_tasks_from (origin : string) : Request :=
  mkRequest "GET" "/api/tasks" [("origin", origin)].

Definition preflight_from (origin requested : string) : Request :=
  mkRequest "OPTIONS" "/api/tasks"
    [("origin", origin); ("access-control-request-method", requested)].

(** The probe fails on an open connection. *)
Definition db_probe_fails : Database :=
  mkDatabase (Return (mkEngine None)) (Return tt) (Return tt)
             (fun _ => Raise Sample.OperationalError) (Return tt).

(** The process is interrupted while the engine is created. *)
Definition db_interrupted : Database :=
  mkDatabase (Raise KeyboardInterrupt) (Return tt) (Return tt)
             (fun _ => Return tt) (Return tt).

End Scenario.

(** ** Proof automation *)

Arguments str_repeat : simpl never.

Ltac run_startup :=
  unfold startup_event, with_, call, logger_info, logger_error, emit,
    try_except_Exception, raise, ret, bind;
  repeat match goal with
         | H : _ = Return _ |- _ => rewrite H
         | H : _ = Raise _ |- _ => rewrite H
         end;
  cbn [Datatypes.app fst snd].

(** Case analysis on the outcomes of the startup steps, in the order the
    hook reaches them. *)
Ltac startup_outcomes db :=
  destruct (get_engine_outcome db) as [?engine | ?e] eqn:?Hge;
  [ destruct (init_db_outcome db) as [[] | ?e] eqn:?Hin;
    [ destruct (connect_outcome db) as [[] | ?e] eqn:?Hco;
      [ destruct (execute_outcome db "SELECT 1") as [[] | ?e] eqn:?Hex;
        destruct (close_outcome db) as [[] | ?e] eqn:?Hcl
      | ]
    | ]
  | ].

(** Membership in a list that is written out. *)
Ltac in_list :=
  repeat first [ apply list_elem_of_here | apply list_elem_of_further ].

Ltac not_in_list H :=
  repeat (apply elem_of_cons in H as [H | H]; [discriminate H |]);
  by apply elem_of_nil in H.

(** ** Equations of the effect layer *)

Lemma bind_return {A B} (w : list Event) (a : A) (k : A -> Eff B) :
  bind (w, Return a) k = ((w ++ events (k a))%list, result (k a)).
Proof. unfold bind, events, result. by destruct (k a). Qed.

Lemma bind_raise {A B} (w : list Event) (e : PyExc) (k : A -> Eff B) :
  bind (w, Raise e) k = (w, Raise e).
Proof. reflexivity. Qed.

Lemma append_cons (c : Ascii.ascii) (s t : string) :
  String c s +:+ t = String c (s +:+ t).
Proof. reflexivity. Qed.

Lemma append_assoc (s t u : string) : (s +:+ t) +:+ u = s +:+ (t +:+ u).
Proof.
  induction s as [| c s IH]; [done |].
  by rewrite !append_cons, IH.
Qed.

Lemma append_empty_r (s : string) : s +:+ "" = s.
Proof.
  induction s as [| c s IH]; [done |].
  by rewrite append_cons, IH.
Qed.

Lemma contains_append_l (s t sub : string) :
  contains s sub -> contains (s +:+ t) sub.
Proof.
  intros (before & after & ->). exists before, (after +:+ t).
  by rewrite !append_assoc.
Qed.

Lemma contains_append_r (s t sub : string) :
  contains t sub -> contains (s +:+ t) sub.
Proof.
  intros (before & after & ->). exists (s +:+ before), after.
  by rewrite !append_assoc.
Qed.

Lemma contains_refl (s : string) : contains s s.
Proof. exists "", "". simpl. by rewrite append_empty_r. Qed.

Create HintDb contains.
#[local] Hint Resolve contains_append_l contains_append_r contains_refl
  : contains.

(** ** The logging middleware *)

(** What the middleware does around a downstream chain that returns. *)
Lemma log_requests_return request call_next w response :
  call_next request = (w, Return response) ->
  log_requests request call_next
  = ((line_before request :: w
      ++ [line_after request (status_code response)])%list,
     Return response).
Proof.
  intros Hnext. unfold log_requests, logger_info, emit, line_before,
    line_after. rewrite Hnext. reflexivity.
Qed.

(** What it does around a downstream chain that raises. *)
Lemma log_requests_raise request call_next w exc :
  call_next request = (w, Raise exc) ->
  log_requests request call_next = (line_before request :: w, Raise exc).
Proof.
  intros Hnext. unfold log_requests, logger_info, emit, line_before.
  rewrite Hnext. reflexivity.
Qed.

Lemma line_before_contents request :
  exists msg, line_before request = LogRecord INFO msg
              /\ contains msg (method request)
              /\ contains msg (url_path request).
Proof.
  eexists; split; [reflexivity |]. split; eauto 8 with contains.
Qed.

Lemma line_after_contents request code :
  exists msg, line_after request code = LogRecord INFO msg
              /\ contains msg (method request)
              /\ contains msg (url_path request)
              /\ contains msg (pretty code).
Proof.
  eexists; split; [reflexivity |]. repeat split; eauto 10 with contains.
Qed.

(** C4, as stated, fails: a request whose endpoint raises an error that
    the inner exception layer has no handler for is answered with status
    500, and the middleware has written the line before dispatch and no
    line after it, for any status code. *)
Lemma log_requests_silent_after_raise :
  log_requests Sample.create_task (fun _ => raise Sample.ValueError)
  = ([line_before Sample.create_task], Raise Sample.ValueError)
  /\ app Sample.framework_handlers Sample.included_routes Sample.unmatched
         Sample.create_task
     = ([line_before Sample.create_task],
        {| sent := Some {| status_code := 500;
                           headers := [];
                           content := error_body "INTERNAL_SERVER_ERROR"
                                        "An unexpected error occurred." |};
           raised := Some Sample.ValueError |})
  /\ ~ (exists code,
          line_after Sample.create_task code
          ∈ fst (app Sample.framework_handlers Sample.included_routes
                     Sample.unmatched Sample.create_task)).
Proof.
  split; [vm_compute; reflexivity |].
  split; [vm_compute; reflexivity |].
  intros [code Hin].
  assert (Hrun : fst (app Sample.framework_handlers Sample.included_routes
                          Sample.unmatched Sample.create_task)
                 = [line_before Sample.create_task])
    by (vm_compute; reflexivity).
  rewrite Hrun in Hin. apply list_elem_of_singleton in Hin.
  unfold line_after, line_before in Hin. discriminate Hin.
Qed.

(** C4, amended: for every request the logging middleware writes exactly
    one line before dispatch, with the method and the path.  When the
    downstream chain returns a response, it writes exactly one line after
    it, with the method, the path and the status code of that response;
    when the downstream chain raises, it writes no line after and the
    exception goes on. *)
Theorem log_requests_lines (request : Request)
    (call_next : Request -> Eff Response) :
  (exists msg, line_before request = LogRecord INFO msg
               /\ contains msg (method request)
               /\ contains msg (url_path request))
  /\ match call_next request with
     | (w, Return response) =>
         log_requests request call_next
         = ((line_before request :: w
             ++ [line_after request (status_code response)])%list,
            Return response)
         /\ exists msg,
              line_after request (status_code response) = LogRecord INFO msg
              /\ contains msg (method request)
              /\ contains msg (url_path request)
              /\ contains msg (pretty (status_code response))
     | (w, Raise exc) =>
         log_requests request call_next = (line_before request :: w, Raise exc)
     end.
Proof.
  split; [apply line_before_contents |].
  destruct (call_next request) as [w [response | exc]] eqn:Hnext.
  - split; [by apply log_requests_return | apply line_after_contents].
  - by apply log_requests_raise.
Qed.

(** C10: the logging middleware hands back what the chain it wraps
    produced, a response or an exception, unchanged; all it adds to the
    run are log records around the chain's own events. *)
Theorem log_requests_transparent (request : Request)
    (call_next : Request -> Eff Response) :
  result (log_requests request call_next) = result (call_next request)
  /\ exists before after,
       events (log_requests request call_next)
       = (before ++ events (call_next request) ++ after)%list
       /\ forallb is_log before = true
       /\ forallb is_log after = true.
Proof.
  destruct (call_next request) as [w [response | exc]] eqn:Hnext.
  - rewrite (log_requests_return _ _ _ _ Hnext). split; [done |].
    exists [line_before request],
           [line_after request (status_code response)].
    by repeat split.
  - rewrite (log_requests_raise _ _ _ _ Hnext). split; [done |].
    exists [line_before request], []. simpl. by rewrite app_nil_r.
Qed.

(** ** The error translators *)

(** C5: each translator is a constant function: whatever the request and
    the exception, it returns the same response, emits nothing, and the
    message in the body is a literal of the module. *)
Theorem error_responses_constant (request1 request2 : Request)
    (exc1 exc2 : PyExc) :
  database_exception_handler request1 exc1
  = database_exception_handler request2 exc2
  /\ general_exception_handler request1 exc1
     = general_exception_handler request2 exc2
  /\ database_exception_handler request1 exc1
     = ([], Return {| status_code := 503;
                      headers := [];
                      content := error_body "DATABASE_ERROR"
                        "A database error occurred. Please try again later." |})
  /\ general_exception_handler request1 exc1
     = ([], Return {| status_code := 500;
                      headers := [];
                      content := error_body "INTERNAL_SERVER_ERROR"
                        "An unexpected error occurred." |}).
Proof. by repeat split. Qed.

(** ** The layers of the stack *)

(** A request that is not a preflight goes down the stack, and what comes
    back keeps its status and content. *)
Lemma cors_return cfg inner request w response :
  is_preflight request = false ->
  inner request = (w, Return response) ->
  exists hs,
    CORSMiddleware cfg inner request
    = (w, Return {| status_code := status_code response;
                    headers := hs;
                    content := content response |}).
Proof.
  unfold is_preflight, CORSMiddleware. intros Hpre Hinner.
  destruct (get_header "origin" (req_headers request)) as [origin |].
  - rewrite Hpre, Hinner. simpl. rewrite app_nil_r. eauto.
  - rewrite Hinner. destruct response. eauto.
Qed.

Lemma cors_raise cfg inner request w exc :
  is_preflight request = false ->
  inner request = (w, Raise exc) ->
  CORSMiddleware cfg inner request = (w, Raise exc).
Proof.
  unfold is_preflight, CORSMiddleware. intros Hpre Hinner.
  destruct (get_header "origin" (req_headers request)) as [origin |].
  - by rewrite Hpre, Hinner.
  - done.
Qed.

Section ApplicationFacts.

Variable framework_handlers : gmap string Handler.
Variable included_routes : list Route.
Variable unmatched : Request -> Eff Response.

(** The handler for [Exception] is the one that goes to the outer layer;
    the inner table keeps the one for [SQLAlchemyError]. *)
Lemma error_handler_is_general :
  exception_handlers framework_handlers !! "Exception"
  = Some general_exception_handler.
Proof. unfold exception_handlers. by rewrite lookup_insert_eq. Qed.

Lemma inner_handlers_lookup (cls : string) :
  delete "Exception" (exception_handlers framework_handlers) !! cls
  = if String.eqb cls "Exception" then None
    else if String.eqb cls "SQLAlchemyError"
         then Some database_exception_handler
         else framework_handlers !! cls.
Proof.
  unfold exception_handlers.
  destruct (String.eqb_spec cls "Exception") as [-> | Hne1].
  - by rewrite lookup_delete_eq.
  - rewrite lookup_delete_ne, lookup_insert_ne by done.
    destruct (String.eqb_spec cls "SQLAlchemyError") as [-> | Hne2].
    + by rewrite lookup_insert_eq.
    + by rewrite lookup_insert_ne.
Qed.

(** Lookup along the MRO, for the two tiers. *)
Lemma lookup_persistence (exc : PyExc) :
  isinstance exc "SQLAlchemyError" = true ->
  no_framework_handler framework_handlers exc = true ->
  lookup_exception_handler
    (delete "Exception" (exception_handlers framework_handlers)) exc
  = Some database_exception_handler.
Proof.
  unfold isinstance, no_framework_handler, lookup_exception_handler.
  induction (exc_mro exc) as [| cls rest IH]; [done |].
  cbn [existsb forallb lookup_mro].
  intros Hin Hall. apply andb_true_iff in Hall as [Hcls Hrest].
  rewrite inner_handlers_lookup.
  rewrite (String.eqb_sym "SQLAlchemyError" cls) in Hin.
  destruct (String.eqb_spec cls "Exception") as [-> | _]; [by apply IH |].
  destruct (String.eqb cls "SQLAlchemyError"); [done |].
  cbn [orb] in Hcls, Hin.
  destruct (framework_handlers !! cls); [done |]. by apply IH.
Qed.

Lemma lookup_other (exc : PyExc) :
  isinstance exc "SQLAlchemyError" = false ->
  no_framework_handler framework_handlers exc = true ->
  lookup_exception_handler
    (delete "Exception" (exception_handlers framework_handlers)) exc
  = None.
Proof.
  unfold isinstance, no_framework_handler, lookup_exception_handler.
  induction (exc_mro exc) as [| cls rest IH]; [done |].
  cbn [existsb forallb lookup_mro].
  intros Hin Hall. apply andb_true_iff in Hall as [Hcls Hrest].
  apply orb_false_iff in Hin as [Hhead Hin].
  rewrite inner_handlers_lookup.
  rewrite (String.eqb_sym "SQLAlchemyError" cls) in Hhead.
  rewrite Hhead in *.
  destruct (String.eqb cls "Exception"); [by apply IH |].
  cbn [orb] in Hcls.
  destruct (framework_handlers !! cls); [done |]. by apply IH.
Qed.

(** The whole stack around a request that reaches the router. *)
Lemma app_of_inner_return request w response :
  is_preflight request = false ->
  inner_app framework_handlers included_routes unmatched request
  = (w, Return response) ->
  exists hs,
    app framework_handlers included_routes unmatched request
    = ((line_before request :: w
        ++ [line_after request (status_code response)])%list,
       {| sent := Some {| status_code := status_code response;
                          headers := hs;
                          content := content response |};
          raised := None |}).
Proof.
  intros Hpre Hinner.
  destruct (cors_return cors_config _ _ _ _ Hpre Hinner) as [hs Hcors].
  exists hs. unfold app, ServerErrorMiddleware, user_middleware.
  cbn [fold_right]. unfold http_middleware.
  by rewrite (log_requests_return _ _ _ _ Hcors).
Qed.

Lemma app_of_inner_raise request w exc :
  is_preflight request = false ->
  isinstance exc "Exception" = true ->
  inner_app framework_handlers included_routes unmatched request
  = (w, Raise exc) ->
  app framework_handlers included_routes unmatched request
  = (line_before request :: w,
     {| sent := Some {| status_code := 500;
                        headers := [];
                        content := error_body "INTERNAL_SERVER_ERROR"
                                     "An unexpected error occurred." |};
        raised := Some exc |}).
Proof.
  intros Hpre Hexc Hinner.
  pose proof (cors_raise cors_config _ _ _ _ Hpre Hinner) as Hcors.
  unfold app. rewrite error_handler_is_general.
  unfold ServerErrorMiddleware, user_middleware.
  cbn [fold_right]. unfold http_middleware.
  rewrite (log_requests_raise _ _ _ _ Hcors), Hexc.
  simpl. by rewrite app_nil_r.
Qed.

(** C1: a request whose handling raises a persistence-layer error is
    answered with exactly 503 and the [DATABASE_ERROR] body.  The
    translation is done by the inner layer with the handler registered for
    [SQLAlchemyError]; nothing is raised to the outer layer, so the handler
    registered for [Exception] does not run, although the error is an
    instance of [Exception] too. *)
Theorem database_error_yields_503 (request : Request) (w : list Event)
    (exc : PyExc) :
  is_preflight request = false ->
  router included_routes unmatched request = (w, Raise exc) ->
  isinstance exc "SQLAlchemyError" = true ->
  isinstance exc "Exception" = true ->
  no_framework_handler framework_handlers exc = true ->
  lookup_exception_handler
    (delete "Exception" (exception_handlers framework_handlers)) exc
  = Some database_exception_handler
  /\ inner_app framework_handlers included_routes unmatched request
     = (w, Return {| status_code := 503;
                     headers := [];
                     content := error_body "DATABASE_ERROR"
                       "A database error occurred. Please try again later." |})
  /\ exists hs,
       app framework_handlers included_routes unmatched request
       = ((line_before request :: w ++ [line_after request 503])%list,
          {| sent := Some {| status_code := 503;
                             headers := hs;
                             content := error_body "DATABASE_ERROR"
                               "A database error occurred. Please try again later." |};
             raised := None |}).
Proof.
  intros Hpre Hroute Hsql Hexc Hfw.
  pose proof (lookup_persistence exc Hsql Hfw) as Hlook.
  assert (Hinner :
    inner_app framework_handlers included_routes unmatched request
    = (w, Return {| status_code := 503;
                    headers := [];
                    content := error_body "DATABASE_ERROR"
                      "A database error occurred. Please try again later." |})).
  { unfold inner_app, ExceptionMiddleware, try_except_Exception.
    rewrite Hroute, Hexc, Hlook. simpl. by rewrite app_nil_r. }
  repeat split; [done | done |].
  destruct (app_of_inner_return _ _ _ Hpre Hinner) as [hs Happ].
  by exists hs.
Qed.

(** C2: a request whose handling raises an error that is not a
    persistence-layer error and that no framework handler takes is
    answered with exactly 500 and the [INTERNAL_SERVER_ERROR] body. *)
Theorem unhandled_error_yields_500 (request : Request) (w : list Event)
    (exc : PyExc) :
  is_preflight request = false ->
  router included_routes unmatched request = (w, Raise exc) ->
  isinstance exc "Exception" = true ->
  isinstance exc "SQLAlchemyError" = false ->
  no_framework_handler framework_handlers exc = true ->
  app framework_handlers included_routes unmatched request
  = (line_before request :: w,
     {| sent := Some {| status_code := 500;
                        headers := [];
                        content := error_body "INTERNAL_SERVER_ERROR"
                                     "An unexpected error occurred." |};
        raised := Some exc |}).
Proof.
  intros Hpre Hroute Hexc Hsql Hfw.
  apply app_of_inner_raise; [done | done |].
  unfold inner_app, ExceptionMiddleware, try_except_Exception.
  rewrite Hroute, Hexc, (lookup_other exc Hsql Hfw).
  simpl. by rewrite app_nil_r.
Qed.

End ApplicationFacts.

(** C1, at a request of the samples: listing the tasks fails in the
    driver. *)
Lemma database_error_yields_503_witness :
  is_preflight Sample.list_tasks = false
  /\ router Sample.included_routes Sample.unmatched Sample.list_tasks
     = ([DbEvent (Execute "SELECT * FROM tasks")],
        Raise Sample.OperationalError)
  /\ isinstance Sample.OperationalError "SQLAlchemyError" = true
  /\ isinstance Sample.OperationalError "Exception" = true
  /\ no_framework_handler Sample.framework_handlers Sample.OperationalError
     = true
  /\ exists hs,
       app Sample.framework_handlers Sample.included_routes Sample.unmatched
           Sample.list_tasks
       = ([line_before Sample.list_tasks;
           DbEvent (Execute "SELECT * FROM tasks");
           line_after Sample.list_tasks 503],
          {| sent := Some {| status_code := 503;
                             headers := hs;
                             content := error_body "DATABASE_ERROR"
                               "A database error occurred. Please try again later." |};
             raised := None |}).
Proof.
  do 5 (split; [vm_compute; reflexivity |]).
  apply (database_error_yields_503 Sample.framework_handlers
           Sample.included_routes Sample.unmatched Sample.list_tasks
           [DbEvent (Execute "SELECT * FROM tasks")]
           Sample.OperationalError);
    vm_compute; reflexivity.
Defined.

(** C2, at a request of the samples: creating a task fails in the
    endpoint's own code. *)
Lemma unhandled_error_yields_500_witness :
  is_preflight Sample.create_task = false
  /\ router Sample.included_routes Sample.unmatched Sample.create_task
     = ([], Raise Sample.ValueError)
  /\ isinstance Sample.ValueError "Exception" = true
  /\ isinstance Sample.ValueError "SQLAlchemyError" = false
  /\ no_framework_handler Sample.framework_handlers Sample.ValueError = true
  /\ app Sample.framework_handlers Sample.included_routes Sample.unmatched
         Sample.create_task
     = ([line_before Sample.create_task],
        {| sent := Some {| status_code := 500;
                           headers := [];
                           content := error_body "INTERNAL_SERVER_ERROR"
                                        "An unexpected error occurred." |};
           raised := Some Sample.ValueError |}).
Proof.
  do 5 (split; [vm_compute; reflexivity |]).
  apply (unhandled_error_yields_500 Sample.framework_handlers
           Sample.included_routes Sample.unmatched Sample.create_task
           [] Sample.ValueError);
    vm_compute; reflexivity.
Defined.

(** ** Routing to the system endpoints *)

Lemma find_app_skip {A} (f : A -> bool) (l1 l2 : list A) :
  forallb (fun x => negb (f x)) l1 = true ->
  find f (l1 ++ l2) = find f l2.
Proof.
  induction l1 as [| x l1 IH]; simpl; [done |].
  intros Hall. apply andb_true_iff in Hall as [Hx Hrest].
  destruct (f x); [done | by apply IH].
Qed.

Lemma get_is_not_preflight (request : Request) :
  method request = "GET" -> is_preflight request = false.
Proof.
  intros Hget. unfold is_preflight. rewrite Hget.
  by destruct (get_header "origin" (req_headers request)).
Qed.

Section SystemEndpoints.

Variable framework_handlers : gmap string Handler.
Variable included_routes : list Route.
Variable unmatched : Request -> Eff Response.

(** A GET request that the router gives to an endpoint returning [body]
    without events comes back as 200 with that body, and the run consists
    of the two lines of the logging middleware. *)
Lemma app_system_endpoint (request : Request) (body : Json) :
  method request = "GET" ->
  router included_routes unmatched request
  = ([], Return (JSONResponse HTTP_200_OK body)) ->
  exists hs,
    app framework_handlers included_routes unmatched request
    = ([line_before request; line_after request 200],
       {| sent := Some {| status_code := 200;
                          headers := hs;
                          content := JsonContent body |};
          raised := None |}).
Proof.
  intros Hget Hroute.
  apply (app_of_inner_return framework_handlers included_routes unmatched
           request [] (JSONResponse HTTP_200_OK body)).
  - by apply get_is_not_preflight.
  - unfold inner_app, ExceptionMiddleware, try_except_Exception.
    by rewrite Hroute.
Qed.

Lemma router_system (request : Request) :
  method request = "GET" ->
  not_shadowed included_routes request = true ->
  router included_routes unmatched request
  = if String.eqb "/" (url_path request)
    then body <- root ;; ret (JSONResponse HTTP_200_OK body)
    else if String.eqb "/health" (url_path request)
    then body <- health_check ;; ret (JSONResponse HTTP_200_OK body)
    else if String.eqb "/api/ping" (url_path request)
    then body <- ping ;; ret (JSONResponse HTTP_200_OK body)
    else unmatched request.
Proof.
  intros Hget Hfree. unfold router, routes.
  rewrite (find_app_skip _ _ _ Hfree).
  unfold find, full_match, get_route. cbn [path_matches methods endpoint].
  rewrite Hget. cbn [existsb]. rewrite String.eqb_refl. cbn [orb].
  rewrite !andb_true_r.
  destruct (String.eqb "/" (url_path request)); [done |].
  destruct (String.eqb "/health" (url_path request)); [done |].
  by destruct (String.eqb "/api/ping" (url_path request)).
Qed.

(** C6: [health_check] returns the literal body, emits nothing and does
    not raise; once the service is up, GET /health is answered with 200
    and that body. *)
Theorem health_check_ok (request : Request) :
  method request = "GET" ->
  url_path request = "/health" ->
  not_shadowed included_routes request = true ->
  health_check = ([], Return (JObj [("status", JStr "ok")]))
  /\ exists hs,
       serve framework_handlers included_routes unmatched Serving request
       = Some ([line_before request; line_after request 200],
               {| sent := Some {| status_code := 200;
                                  headers := hs;
                                  content :=
                                    JsonContent (JObj [("status", JStr "ok")]) |};
                  raised := None |}).
Proof.
  intros Hget Hpath Hfree. split; [done |].
  destruct (app_system_endpoint request (JObj [("status", JStr "ok")]) Hget)
    as [hs Happ].
  - rewrite (router_system request Hget Hfree), Hpath. reflexivity.
  - exists hs. unfold serve. by rewrite Happ.
Qed.

(** C7: [ping] returns the literal body, takes no argument, emits nothing
    and does not raise; GET /api/ping is answered with 200 and that
    body. *)
Theorem ping_ok (request : Request) :
  method request = "GET" ->
  url_path request = "/api/ping" ->
  not_shadowed included_routes request = true ->
  ping = ([], Return (JObj [("ping", JStr "pong"); ("cors", JStr "enabled")]))
  /\ exists hs,
       serve framework_handlers included_routes unmatched Serving request
       = Some ([line_before request; line_after request 200],
               {| sent := Some {| status_code := 200;
                                  headers := hs;
                                  content :=
                                    JsonContent
                                      (JObj [("ping", JStr "pong");
                                             ("cors", JStr "enabled")]) |};
                  raised := None |}).
Proof.
  intros Hget Hpath Hfree. split; [done |].
  destruct (app_system_endpoint request
              (JObj [("ping", JStr "pong"); ("cors", JStr "enabled")]) Hget)
    as [hs Happ].
  - rewrite (router_system request Hget Hfree), Hpath. reflexivity.
  - exists hs. unfold serve. by rewrite Happ.
Qed.

(** C8: [root] returns one fixed object with the fields service, version,
    status, docs and health, in that order and with the literal values of
    the module; it emits nothing and does not raise; GET / is answered
    with that object. *)
Theorem root_ok (request : Request) :
  method request = "GET" ->
  url_path request = "/" ->
  not_shadowed included_routes request = true ->
  root = ([], Return (JObj [("service", JStr "Evolution of Todo API");
                            ("version", JStr "0.1.0");
                            ("status", JStr "running");
                            ("docs", JStr "/docs");
                            ("health", JStr "/health")]))
  /\ exists hs,
       serve framework_handlers included_routes unmatched Serving request
       = Some ([line_before request; line_after request 200],
               {| sent := Some {| status_code := 200;
                                  headers := hs;
                                  content :=
                                    JsonContent
                                      (JObj [("service",
                                              JStr "Evolution of Todo API");
                                             ("version", JStr "0.1.0");
                                             ("status", JStr "running");
                                             ("docs", JStr "/docs");
                                             ("health", JStr "/health")]) |};
                  raised := None |}).
Proof.
  intros Hget Hpath Hfree. split; [done |].
  destruct (app_system_endpoint request
              (JObj [("service", JStr "Evolution of Todo API");
                     ("version", JStr "0.1.0");
                     ("status", JStr "running");
                     ("docs", JStr "/docs");
                     ("health", JStr "/health")]) Hget)
    as [hs Happ].
  - rewrite (router_system request Hget Hfree), Hpath. reflexivity.
  - exists hs. unfold serve. by rewrite Happ.
Qed.

End SystemEndpoints.

(** C6, at a request of the samples. *)
Lemma health_check_ok_witness :
  method Sample.get_health = "GET"
  /\ url_path Sample.get_health = "/health"
  /\ not_shadowed Sample.included_routes Sample.get_health = true
  /\ exists hs,
       serve Sample.framework_handlers Sample.included_routes
             Sample.unmatched Serving Sample.get_health
       = Some ([line_before Sample.get_health;
                line_after Sample.get_health 200],
               {| sent := Some {| status_code := 200;
                                  headers := hs;
                                  content :=
                                    JsonContent (JObj [("status", JStr "ok")]) |};
                  raised := None |}).
Proof.
  do 3 (split; [vm_compute; reflexivity |]).
  apply (health_check_ok Sample.framework_handlers Sample.included_routes
           Sample.unmatched Sample.get_health);
    vm_compute; reflexivity.
Defined.

(** C7, at a request of the samples. *)
Lemma ping_ok_witness :
  method Sample.get_ping = "GET"
  /\ url_path Sample.get_ping = "/api/ping"
  /\ not_shadowed Sample.included_routes Sample.get_ping = true
  /\ exists hs,
       serve Sample.framework_handlers Sample.included_routes
             Sample.unmatched Serving Sample.get_ping
       = Some ([line_before Sample.get_ping; line_after Sample.get_ping 200],
               {| sent := Some {| status_code := 200;
                                  headers := hs;
                                  content :=
                                    JsonContent
                                      (JObj [("ping", JStr "pong");
                                             ("cors", JStr "enabled")]) |};
                  raised := None |}).
Proof.
  do 3 (split; [vm_compute; reflexivity |]).
  apply (ping_ok Sample.framework_handlers Sample.included_routes
           Sample.unmatched Sample.get_ping);
    vm_compute; reflexivity.
Defined.

(** C8, at a request of the samples. *)
Lemma root_ok_witness :
  method Sample.get_root = "GET"
  /\ url_path Sample.get_root = "/"
  /\ not_shadowed Sample.included_routes Sample.get_root = true
  /\ exists hs,
       serve Sample.framework_handlers Sample.included_routes
             Sample.unmatched Serving Sample.get_root
       = Some ([line_before Sample.get_root; line_after Sample.get_root 200],
               {| sent := Some {| status_code := 200;
                                  headers := hs;
                                  content :=
                                    JsonContent
                                      (JObj [("service",
                                              JStr "Evolution of Todo API");
                                             ("version", JStr "0.1.0");
                                             ("status", JStr "running");
                                             ("docs", JStr "/docs");
                                             ("health", JStr "/health")]) |};
                  raised := None |}).
Proof.
  do 3 (split; [vm_compute; reflexivity |]).
  apply (root_ok Sample.framework_handlers Sample.included_routes
           Sample.unmatched Sample.get_root);
    vm_compute; reflexivity.
Defined.

(** ** The CORS policy *)

Lemma get_set_header_eq (name value : string) (hs : list (string * string)) :
  get_header name (set_header name value hs) = Some value.
Proof.
  unfold get_header.
  induction hs as [| [k v] rest IH]; cbn [set_header find fst].
  - by rewrite String.eqb_refl.
  - destruct (String.eqb k name) eqn:Hk; cbn [find fst].
    + by rewrite String.eqb_refl.
    + by rewrite Hk.
Qed.

Lemma get_set_header_ne (name other value : string)
    (hs : list (string * string)) :
  String.eqb other name = false ->
  get_header name (set_header other value hs) = get_header name hs.
Proof.
  intros Hne. unfold get_header.
  induction hs as [| [k v] rest IH]; cbn [set_header find fst].
  - by rewrite Hne.
  - destruct (String.eqb k other) eqn:Hk; cbn [find fst].
    + apply String.eqb_eq in Hk as ->. by rewrite Hne.
    + destruct (String.eqb k name); [done | apply IH].
Qed.

Lemma get_add_vary_header_ne (name value : string)
    (hs : list (string * string)) :
  String.eqb "vary" name = false ->
  get_header name (add_vary_header value hs) = get_header name hs.
Proof.
  intros Hne. unfold add_vary_header.
  destruct (get_header "vary" hs); by apply get_set_header_ne.
Qed.

Lemma is_allowed_origin_spec (origin : string) :
  is_allowed_origin cors_config origin
  = bool_decide (origin ∈ allow_origins cors_config).
Proof.
  unfold is_allowed_origin.
  change (allow_all_origins cors_config) with false. cbn [orb].
  destruct (existsb (String.eqb origin) (allow_origins cors_config))
    eqn:Hex; symmetry.
  - apply bool_decide_eq_true. apply existsb_exists in Hex as (o & Hin & Heq).
    apply String.eqb_eq in Heq as ->. by apply list_elem_of_In.
  - apply bool_decide_eq_false. intros Hin.
    assert (existsb (String.eqb origin) (allow_origins cors_config) = true)
      as Hyes; [| congruence].
    apply existsb_exists. exists origin.
    split; [by apply list_elem_of_In | apply String.eqb_refl].
Qed.

(** C9: the policy is the literal configuration of the module: five
    distinct origins, the six methods, every header, credentials on.  An
    origin is allowed exactly when it is one of the five, and the
    middleware puts [Access-Control-Allow-Origin] on a response, preflight
    or not, only for an allowed origin.  The configuration is a constant
    of the stack: no request reads it from, or writes it to, a state. *)
Theorem cors_policy_static :
  allow_origins cors_config
  = ["http://localhost:3000";
     "http://127.0.0.1:3000";
     "https://todo-evolution-liart.vercel.app";
     "https://todo-evolution.vercel.app";
     "https://evaluation-todo.vercel.app"]
  /\ length (allow_origins cors_config) = 5%nat
  /\ NoDup (allow_origins cors_config)
  /\ allow_methods cors_config
     = ["GET"; "POST"; "PUT"; "PATCH"; "DELETE"; "OPTIONS"]
  /\ allow_headers cors_config = ["*"]
  /\ allow_all_headers cors_config = true
  /\ allow_credentials cors_config = true
  /\ allow_all_origins cors_config = false
  /\ (forall origin,
        is_allowed_origin cors_config origin
        = bool_decide (origin ∈ allow_origins cors_config))
  /\ (forall origin hs,
        get_header "access-control-allow-origin"
          (simple_response_headers cors_config origin hs)
        = if is_allowed_origin cors_config origin then Some origin
          else get_header "access-control-allow-origin" hs)
  /\ (forall request_headers,
        get_header "access-control-allow-origin"
          (headers (preflight_response cors_config request_headers))
        = if is_allowed_origin cors_config
               (default "" (get_header "origin" request_headers))
          then Some (default "" (get_header "origin" request_headers))
          else None)
  /\ user_middleware
     = [http_middleware log_requests; CORSMiddleware cors_config].
Proof.
  split; [reflexivity |]. split; [reflexivity |].
  split; [apply (bool_decide_unpack (NoDup _)); vm_compute; exact I |].
  do 5 (split; [reflexivity |]).
  split; [apply is_allowed_origin_spec |].
  split; [| split; [| reflexivity]].
  - intros origin hs. unfold simple_response_headers.
    destruct (is_allowed_origin cors_config origin).
    + rewrite get_add_vary_header_ne by reflexivity.
      apply get_set_header_eq.
    + by rewrite get_set_header_ne.
  - intros request_headers. unfold preflight_response.
    set (origin := default "" (get_header "origin" request_headers)).
    set (requested := default "" (get_header "access-control-request-method"
                                    request_headers)).
    assert (Hhs : forall base,
      get_header "access-control-allow-origin"
        match get_header "access-control-request-headers" request_headers
        with
        | Some h => set_header "access-control-allow-headers" h base
        | None => base
        end
      = get_header "access-control-allow-origin" base).
    { intros base.
      destruct (get_header "access-control-request-headers" request_headers);
        [by apply get_set_header_ne | done]. }
    destruct (is_allowed_origin cors_config origin);
      destruct (existsb (String.eqb requested) (allow_methods cors_config));
      cbn [Datatypes.app headers PlainTextResponse]; rewrite Hhs;
      first [apply get_set_header_eq | reflexivity].
Qed.

(** ** The startup hook *)

(** The hook either finds every step returning, or some step raises. *)
Lemma startup_cases (db : Database) :
  startup_ok db \/ exists e, step_raises db e.
Proof.
  unfold startup_ok.
  destruct (get_engine_outcome db) as [engine | e] eqn:Hge;
    [| right; exists e; by apply raises_get_engine].
  destruct (init_db_outcome db) as [[] | e] eqn:Hin;
    [| right; exists e; by eapply raises_init_db].
  destruct (connect_outcome db) as [[] | e] eqn:Hco;
    [| right; exists e; by eapply raises_connect].
  destruct (close_outcome db) as [[] | e] eqn:Hcl;
    [| right; exists e; by eapply raises_close].
  destruct (execute_outcome db "SELECT 1") as [[] | e] eqn:Hex;
    [| right; exists e; by eapply raises_execute].
  left. repeat split; eauto.
Qed.

(** The two outcomes exclude each other. *)
Lemma startup_ok_no_raise (db : Database) (e : PyExc) :
  startup_ok db -> step_raises db e -> False.
Proof.
  intros ([engine Hge] & Hin & Hco & Hex & Hcl) Hstep.
  destruct Hstep; congruence.
Qed.

(** The run of the hook when every step returns. *)
Lemma startup_event_ok (db : Database) :
  startup_ok db ->
  exists engine,
    startup_event db
    = ([LogRecord INFO (str_repeat "=" 60);
        LogRecord INFO "Starting database initialization...";
        DbEvent GetEngine;
        LogRecord INFO ("✓ Database engine created: "
                        +:+ fmt_opt (url_database engine));
        DbEvent InitDb;
        LogRecord INFO "✓ Database tables initialized successfully";
        DbEvent Connect;
        DbEvent (Execute "SELECT 1");
        LogRecord INFO "✓ Database connection verified";
        DbEvent Close;
        LogRecord INFO (str_repeat "=" 60);
        LogRecord INFO "Database initialization complete!";
        LogRecord INFO (str_repeat "=" 60)],
       Return tt).
Proof.
  intros ([engine Hge] & Hin & Hco & Hex & Hcl).
  exists engine. by run_startup.
Qed.

(** The run of the hook when a step raises: the calls made so far are a
    prefix of the sequence, the three error records follow when the
    exception is an [Exception], and the exception comes out. *)
Lemma startup_event_raises (db : Database) (e : PyExc) :
  step_raises db e ->
  exists w,
    startup_event db
    = ((w ++ if isinstance e "Exception"
             then [LogRecord ERROR (str_repeat "=" 60);
                   failure_line e;
                   LogRecord ERROR (str_repeat "=" 60)]
             else [])%list,
       Raise e)
    /\ db_calls w `prefix_of` startup_steps.
Proof.
  intros Hstep. unfold failure_line, startup_steps.
  pose (head := [LogRecord INFO (str_repeat "=" 60);
                 LogRecord INFO "Starting database initialization..."]).
  destruct Hstep as [Hge | engine Hge Hin | engine Hge Hin Hco
                     | engine Hge Hin Hco Hex Hcl | engine Hge Hin Hco Hcl].
  - exists (head ++ [DbEvent GetEngine])%list.
    run_startup. destruct (isinstance e "Exception");
      (split; [reflexivity | by eexists]).
  - exists (head
            ++ [DbEvent GetEngine;
                LogRecord INFO ("✓ Database engine created: "
                                +:+ fmt_opt (url_database engine));
                DbEvent InitDb])%list.
    run_startup. destruct (isinstance e "Exception");
      (split; [reflexivity | by eexists]).
  - exists (head
            ++ [DbEvent GetEngine;
                LogRecord INFO ("✓ Database engine created: "
                                +:+ fmt_opt (url_database engine));
                DbEvent InitDb;
                LogRecord INFO "✓ Database tables initialized successfully";
                DbEvent Connect])%list.
    run_startup. destruct (isinstance e "Exception");
      (split; [reflexivity | by eexists]).
  - exists (head
            ++ [DbEvent GetEngine;
                LogRecord INFO ("✓ Database engine created: "
                                +:+ fmt_opt (url_database engine));
                DbEvent InitDb;
                LogRecord INFO "✓ Database tables initialized successfully";
                DbEvent Connect;
                DbEvent (Execute "SELECT 1");
                DbEvent Close])%list.
    run_startup. destruct (isinstance e "Exception");
      (split; [reflexivity | by eexists]).
  - destruct (execute_outcome db "SELECT 1") as [[] | e'] eqn:Hex.
    + exists (head
              ++ [DbEvent GetEngine;
                  LogRecord INFO ("✓ Database engine created: "
                                  +:+ fmt_opt (url_database engine));
                  DbEvent InitDb;
                  LogRecord INFO "✓ Database tables initialized successfully";
                  DbEvent Connect;
                  DbEvent (Execute "SELECT 1");
                  LogRecord INFO "✓ Database connection verified";
                  DbEvent Close])%list.
      run_startup. destruct (isinstance e "Exception");
        (split; [reflexivity | by eexists]).
    + exists (head
              ++ [DbEvent GetEngine;
                  LogRecord INFO ("✓ Database engine created: "
                                  +:+ fmt_opt (url_database engine));
                  DbEvent InitDb;
                  LogRecord INFO "✓ Database tables initialized successfully";
                  DbEvent Connect;
                  DbEvent (Execute "SELECT 1");
                  DbEvent Close])%list.
      run_startup. destruct (isinstance e "Exception");
        (split; [reflexivity | by eexists]).
Qed.

Lemma db_calls_app (w1 w2 : list Event) :
  db_calls (w1 ++ w2) = (db_calls w1 ++ db_calls w2)%list.
Proof.
  induction w1 as [| [lvl msg | c] w1 IH]; cbn [db_calls Datatypes.app];
    [done | done | by rewrite IH].
Qed.

Lemma lifespan_startup_result (db : Database) :
  lifespan_startup db
  = (events (startup_event db),
     match result (startup_event db) with
     | Return _ => Serving
     | Raise _ => StartupFailed
     end).
Proof.
  unfold lifespan_startup, events, result.
  by destruct (startup_event db) as [w [[] | e]].
Qed.

(** C3: the hook calls, in this order, [get_engine], [init_db] and the
    probe [SELECT 1] on a connection it opens and closes, and nothing
    else.  When every step returns the hook returns and the server starts
    serving.  When a step raises, the same exception comes out of the
    hook, startup has failed and no request reaches the application; the
    failure is logged when the exception is an [Exception].  The server
    serves only when every step has returned. *)
Theorem startup_sequencer (db : Database) :
  db_calls (events (startup_event db)) `prefix_of` startup_steps
  /\ (startup_ok db ->
      db_calls (events (startup_event db)) = startup_steps
      /\ result (startup_event db) = Return tt
      /\ snd (lifespan_startup db) = Serving)
  /\ (forall e,
        step_raises db e ->
        result (startup_event db) = Raise e
        /\ snd (lifespan_startup db) = StartupFailed
        /\ (isinstance e "Exception" = true ->
            failure_line e ∈ events (startup_event db))
        /\ forall framework_handlers included_routes unmatched request,
             serve framework_handlers included_routes unmatched
                   (snd (lifespan_startup db)) request
             = None)
  /\ (snd (lifespan_startup db) = Serving -> startup_ok db).
Proof.
  assert (Hok : startup_ok db ->
                db_calls (events (startup_event db)) = startup_steps
                /\ result (startup_event db) = Return tt
                /\ snd (lifespan_startup db) = Serving).
  { intros Hall. rewrite lifespan_startup_result.
    destruct (startup_event_ok db Hall) as [engine ->]. by repeat split. }
  assert (Hfail : forall e,
            step_raises db e ->
            exists w,
              events (startup_event db)
              = (w ++ if isinstance e "Exception"
                      then [LogRecord ERROR (str_repeat "=" 60);
                            failure_line e;
                            LogRecord ERROR (str_repeat "=" 60)]
                      else [])%list
              /\ db_calls w `prefix_of` startup_steps
              /\ result (startup_event db) = Raise e).
  { intros e Hstep.
    destruct (startup_event_raises db e Hstep) as (w & -> & Hprefix).
    by exists w. }
  split; [| split; [done | split]].
  - destruct (startup_cases db) as [Hall | [e Hstep]].
    + destruct (Hok Hall) as (-> & _). done.
    + destruct (Hfail e Hstep) as (w & -> & Hprefix & _).
      rewrite db_calls_app.
      destruct (isinstance e "Exception"); cbn [db_calls];
        by rewrite app_nil_r.
  - intros e Hstep.
    destruct (Hfail e Hstep) as (w & Hev & _ & Hres).
    rewrite lifespan_startup_result, Hres, Hev. cbn [snd].
    split; [done |]. split; [done |]. split; [| done].
    intros ->. apply elem_of_app. right.
    apply elem_of_cons. right. apply elem_of_cons. by left.
  - intros Hserving.
    destruct (startup_cases db) as [Hall | [e Hstep]]; [done |].
    destruct (Hfail e Hstep) as (w & _ & _ & Hres).
    rewrite lifespan_startup_result, Hres in Hserving. done.
Qed.

(** C3, at the samples: a database that is up, and one whose schema
    creation fails. *)
Lemma startup_sequencer_witness :
  startup_ok Sample.db_up
  /\ (db_calls (events (startup_event Sample.db_up)) = startup_steps
      /\ result (startup_event Sample.db_up) = Return tt
      /\ snd (lifespan_startup Sample.db_up) = Serving)
  /\ step_raises Sample.db_down Sample.OperationalError
  /\ isinstance Sample.OperationalError "Exception" = true
  /\ result (startup_event Sample.db_down) = Raise Sample.OperationalError
  /\ snd (lifespan_startup Sample.db_down) = StartupFailed
  /\ failure_line Sample.OperationalError
     ∈ events (startup_event Sample.db_down).
Proof.
  assert (Hup : startup_ok Sample.db_up).
  { unfold startup_ok. repeat split; try reflexivity.
    exists (mkEngine (Some "todo")). reflexivity. }
  assert (Hdown : step_raises Sample.db_down Sample.OperationalError).
  { apply (raises_init_db _ _ (mkEngine (Some "todo"))); reflexivity. }
  split; [exact Hup |].
  split; [exact (proj1 (proj2 (startup_sequencer Sample.db_up)) Hup) |].
  split; [exact Hdown |].
  split; [reflexivity |].
  destruct (proj1 (proj2 (proj2 (startup_sequencer Sample.db_down)))
              Sample.OperationalError Hdown)
    as (Hres & Hstate & Hlog & _).
  split; [exact Hres |]. split; [exact Hstate |].
  apply Hlog. reflexivity.
Defined.

(** ** More on the startup hook *)

(** How far the sequence of database calls gets, by the outcome of the
    steps: the probe and the closing of the connection are both made as
    soon as the connection is open. *)
Lemma startup_db_calls (db : Database) :
  db_calls (events (startup_event db))
  = match get_engine_outcome db with
    | Raise _ => [GetEngine]
    | Return _ =>
        match init_db_outcome db with
        | Raise _ => [GetEngine; InitDb]
        | Return _ =>
            match connect_outcome db with
            | Raise _ => [GetEngine; InitDb; Connect]
            | Return _ => startup_steps
            end
        end
    end.
Proof.
  unfold events.
  startup_outcomes db; run_startup;
    repeat match goal with
           | |- context [isinstance ?x "Exception"] =>
               destruct (isinstance x "Exception")
           end;
    reflexivity.
Qed.

(** X1: the connection that the hook opens for the probe is closed on
    every way out of the [with] block: once [engine.connect()] has
    returned, the hook makes all five calls, whatever the probe and the
    closing themselves do; and it closes nothing that it has not
    opened. *)
Theorem startup_closes_connection (db : Database) :
  ((exists engine, get_engine_outcome db = Return engine)
   /\ init_db_outcome db = Return tt
   /\ connect_outcome db = Return tt ->
   db_calls (events (startup_event db)) = startup_steps)
  /\ (Close ∈ db_calls (events (startup_event db)) ->
      (exists engine, get_engine_outcome db = Return engine)
      /\ init_db_outcome db = Return tt
      /\ connect_outcome db = Return tt).
Proof.
  rewrite startup_db_calls. split.
  - intros ([engine ->] & -> & ->). reflexivity.
  - destruct (get_engine_outcome db) as [engine | e1];
      [| intros Hin; not_in_list Hin].
    destruct (init_db_outcome db) as [[] | e2];
      [| intros Hin; not_in_list Hin].
    destruct (connect_outcome db) as [[] | e3];
      [| intros Hin; not_in_list Hin].
    eauto.
Qed.

(** X1, at a database whose probe fails on an open connection. *)
Lemma startup_closes_connection_witness :
  ((exists engine,
      get_engine_outcome Scenario.db_probe_fails = Return engine)
   /\ init_db_outcome Scenario.db_probe_fails = Return tt
   /\ connect_outcome Scenario.db_probe_fails = Return tt)
  /\ result (startup_event Scenario.db_probe_fails)
     = Raise Sample.OperationalError
  /\ db_calls (events (startup_event Scenario.db_probe_fails))
     = [GetEngine; InitDb; Connect; Execute "SELECT 1"; Close].
Proof.
  assert (Hopen :
    (exists engine,
       get_engine_outcome Scenario.db_probe_fails = Return engine)
    /\ init_db_outcome Scenario.db_probe_fails = Return tt
    /\ connect_outcome Scenario.db_probe_fails = Return tt).
  { split; [exists (mkEngine None); reflexivity |].
    split; reflexivity. }
  split; [exact Hopen |]. split; [vm_compute; reflexivity |].
  exact (proj1 (startup_closes_connection Scenario.db_probe_fails) Hopen).
Defined.

(** X2: the hook logs that initialization is complete exactly when every
    step has returned. *)
Theorem startup_completion_logged (db : Database) :
  completion_line ∈ events (startup_event db) <-> startup_ok db.
Proof.
  unfold startup_ok, completion_line, events.
  startup_outcomes db; run_startup;
    repeat match goal with
           | |- context [isinstance ?x "Exception"] =>
               destruct (isinstance x "Exception")
           end;
    cbn [fst];
    (split;
     [ intros Hmem;
       first [ by (repeat split; eauto) | exfalso; not_in_list Hmem ]
     | intros ([engine' Hge'] & Hin' & Hco' & Hex' & Hcl');
       try discriminate; in_list ]).
Qed.

(** X3: the hook writes error records exactly when a step raises an
    instance of [Exception]; an exception outside that class, such as an
    interrupt, comes out of the hook without a record. *)
Theorem startup_error_logged (db : Database) :
  (exists msg, LogRecord ERROR msg ∈ events (startup_event db))
  <-> exists e, step_raises db e /\ isinstance e "Exception" = true.
Proof.
  split.
  - intros [msg Hmem]. revert Hmem. unfold events.
    startup_outcomes db; run_startup;
      repeat match goal with
             | |- context [isinstance ?x "Exception"] =>
                 destruct (isinstance x "Exception") eqn:?
             end;
      cbn [fst]; intros Hmem;
      first [ exfalso; not_in_list Hmem
            | eauto 6 using raises_get_engine, raises_init_db,
                raises_connect, raises_execute, raises_close ].
  - intros (e & Hstep & Hexc).
    destruct (startup_event_raises db e Hstep) as (w & Hrun & _).
    exists ("✗ Database initialization FAILED: " +:+ exc_str e).
    rewrite Hrun, Hexc. cbn [events fst].
    apply elem_of_app. right. unfold failure_line. in_list.
Qed.

(** X3, at a database that is interrupted and at one that is down. *)
Lemma startup_error_logged_witness :
  result (startup_event Scenario.db_interrupted)
  = Raise Scenario.KeyboardInterrupt
  /\ ~ (exists msg,
          LogRecord ERROR msg ∈ events (startup_event Scenario.db_interrupted))
  /\ exists msg,
       LogRecord ERROR msg ∈ events (startup_event Sample.db_down).
Proof.
  split; [vm_compute; reflexivity |]. split.
  - intros Hlogged.
    apply (proj1 (startup_error_logged Scenario.db_interrupted)) in Hlogged
      as (e & Hstep & Hexc).
    destruct Hstep as [Hge | ? Hge | ? Hge | ? Hge | ? Hge];
      vm_compute in Hge; [| discriminate Hge ..].
    injection Hge as <-. vm_compute in Hexc. discriminate Hexc.
  - apply (proj2 (startup_error_logged Sample.db_down)).
    exists Sample.OperationalError. split; [| vm_compute; reflexivity].
    apply (raises_init_db _ _ (mkEngine (Some "todo"))); reflexivity.
Defined.

(** ** More on routing *)

Lemma find_app_first {A} (f : A -> bool) (l1 l2 : list A) (x : A) :
  find f l1 = Some x -> find f (l1 ++ l2) = Some x.
Proof.
  induction l1 as [| y l1 IH]; cbn [find Datatypes.app]; [done |].
  destruct (f y); [done | apply IH].
Qed.

(** X4: the routes of [tasks_router] are in the table before the system
    endpoints, so a route among them that matches a request takes it,
    also when the request is for a system endpoint. *)
Theorem included_route_takes_precedence (included_routes : list Route)
    (unmatched : Request -> Eff Response) (request : Request) (r : Route) :
  find (full_match request) included_routes = Some r ->
  router included_routes unmatched request = endpoint r request.
Proof.
  intros Hfind. unfold router, routes.
  by rewrite (find_app_first _ _ _ _ Hfind).
Qed.

(** X4, at a table whose first route answers GET /health itself. *)
Lemma included_route_takes_precedence_witness :
  url_path Scenario.get_health = "/health"
  /\ router Scenario.included_routes Sample.unmatched Scenario.get_health
     = ([], Return (JSONResponse 200 (JObj [("status", JStr "degraded")]))).
Proof.
  split; [reflexivity |].
  apply (included_route_takes_precedence Scenario.included_routes
           Sample.unmatched Scenario.get_health
           {| path_matches := String.eqb "/health";
              methods := ["GET"];
              endpoint := fun _ =>
                ret (JSONResponse 200
                       (JObj [("status", JStr "degraded")])) |}).
  vm_compute. reflexivity.
Defined.



(** ** More on the stack *)

Lemma cors_preflight cfg inner request :
  is_preflight request = true ->
  CORSMiddleware cfg inner request
  = ([], Return (preflight_response cfg (req_headers request))).
Proof.
  unfold is_preflight, CORSMiddleware. intros Hpre.
  destruct (get_header "origin" (req_headers request)); [| done].
  by rewrite Hpre.
Qed.

Lemma cors_return_origin cfg inner request origin w response :
  get_header "origin" (req_headers request) = Some origin ->
  is_preflight request = false ->
  inner request = (w, Return response) ->
  CORSMiddleware cfg inner request
  = (w, Return {| status_code := status_code response;
                  headers := simple_response_headers cfg origin
                               (headers response);
                  content := content response |}).
Proof.
  unfold is_preflight, CORSMiddleware. intros Horigin Hpre Hinner.
  rewrite Horigin in *. rewrite Hpre, Hinner.
  cbn [bind ret]. by rewrite app_nil_r.
Qed.

Section StackFacts.

Variable framework_handlers : gmap string Handler.
Variable included_routes : list Route.
Variable unmatched : Request -> Eff Response.

(** The stack, written as the layers it is folded from. *)
Lemma app_layers (request : Request) :
  app framework_handlers included_routes unmatched request
  = ServerErrorMiddleware (Some general_exception_handler)
      (fun request =>
         log_requests request
           (CORSMiddleware cors_config
              (inner_app framework_handlers included_routes unmatched)))
      request.
Proof. unfold app. by rewrite error_handler_is_general. Qed.

(** X6: the logging middleware is outside [CORSMiddleware], which is
    outside the router: a preflight request is answered by the CORS layer
    with no route consulted, and both of its log lines are written, the
    second with the status of the preflight answer. *)
Theorem preflight_answered_by_cors (request : Request) :
  is_preflight request = true ->
  app framework_handlers included_routes unmatched request
  = ([line_before request;
      line_after request
        (status_code (preflight_response cors_config (req_headers request)))],
     {| sent := Some (preflight_response cors_config (req_headers request));
        raised := None |}).
Proof.
  intros Hpre. rewrite app_layers. unfold ServerErrorMiddleware.
  by rewrite (log_requests_return _ _ _ _
                (cors_preflight cors_config _ _ Hpre)).
Qed.

(** X8: a translated persistence error passes the CORS layer on its way
    out and carries the origin grant of an allowed origin; the answer of
    the generic handler is made outside the CORS layer and carries no
    grant, whatever the origin. *)
Theorem error_responses_and_cors (request : Request) (origin : string)
    (w : list Event) (exc : PyExc) :
  get_header "origin" (req_headers request) = Some origin ->
  is_preflight request = false ->
  router included_routes unmatched request = (w, Raise exc) ->
  isinstance exc "Exception" = true ->
  no_framework_handler framework_handlers exc = true ->
  exists response,
    sent (snd (app framework_handlers included_routes unmatched request))
    = Some response
    /\ get_header "access-control-allow-origin" (headers response)
       = if isinstance exc "SQLAlchemyError"
            && is_allowed_origin cors_config origin
         then Some origin
         else None.
Proof.
  intros Horigin Hpre Hroute Hexc Hfw.
  destruct (isinstance exc "SQLAlchemyError") eqn:Hsql.
  - pose proof (lookup_persistence framework_handlers exc Hsql Hfw) as Hlook.
    assert (Hinner :
      inner_app framework_handlers included_routes unmatched request
      = (w, Return (JSONResponse HTTP_503_SERVICE_UNAVAILABLE
                      (JObj [("error",
                              JObj [("code", JStr "DATABASE_ERROR");
                                    ("message",
                                     JStr "A database error occurred. Please try again later.")])])))).
    { unfold inner_app, ExceptionMiddleware, try_except_Exception.
      rewrite Hroute, Hexc, Hlook.
      unfold database_exception_handler, ret. by rewrite app_nil_r. }
    rewrite app_layers. unfold ServerErrorMiddleware.
    rewrite (log_requests_return _ _ _ _
               (cors_return_origin cors_config _ _ _ _ _ Horigin Hpre Hinner)).
    eexists. split; [reflexivity |].
    cbn [headers JSONResponse andb]. unfold simple_response_headers.
    destruct (is_allowed_origin cors_config origin).
    + rewrite get_add_vary_header_ne by reflexivity.
      apply get_set_header_eq.
    + reflexivity.
  - assert (Hinner :
      inner_app framework_handlers included_routes unmatched request
      = (w, Raise exc)).
    { unfold inner_app, ExceptionMiddleware, try_except_Exception.
      rewrite Hroute, Hexc, (lookup_other framework_handlers exc Hsql Hfw).
      unfold raise. by rewrite app_nil_r. }
    rewrite (app_of_inner_raise framework_handlers included_routes unmatched
               request w exc Hpre Hexc Hinner).
    eexists. split; reflexivity.
Qed.

(** X9: the inner and the outer layer both catch [Exception] only.  An
    exception outside that class that comes out of an endpoint is
    translated by neither handler of the module: no response is sent and
    the exception leaves the application. *)
Theorem base_exception_not_translated (request : Request) (w : list Event)
    (exc : PyExc) :
  is_preflight request = false ->
  router included_routes unmatched request = (w, Raise exc) ->
  isinstance exc "Exception" = false ->
  app framework_handlers included_routes unmatched request
  = (line_before request :: w, {| sent := None; raised := Some exc |}).
Proof.
  intros Hpre Hroute Hexc.
  assert (Hinner :
    inner_app framework_handlers included_routes unmatched request
    = (w, Raise exc)).
  { unfold inner_app, ExceptionMiddleware, try_except_Exception.
    by rewrite Hroute, Hexc. }
  rewrite app_layers. unfold ServerErrorMiddleware.
  rewrite (log_requests_raise _ _ _ _
             (cors_raise cors_config _ _ _ _ Hpre Hinner)).
  by rewrite Hexc.
Qed.


(** X11: every request that reaches the application is logged on its way
    in: whatever the request is and whatever becomes of it, the first
    event of its run is the line before dispatch. *)
Theorem every_request_logged (request : Request) :
  exists rest,
    fst (app framework_handlers included_routes unmatched request)
    = line_before request :: rest.
Proof.
  rewrite app_layers. unfold ServerErrorMiddleware.
  destruct (CORSMiddleware cors_config
              (inner_app framework_handlers included_routes unmatched)
              request) as [w [response | exc]] eqn:Hcors.
  - rewrite (log_requests_return _ _ _ _ Hcors). eauto.
  - rewrite (log_requests_raise _ _ _ _ Hcors).
    destruct (isinstance exc "Exception"); cbn; eauto.
Qed.

(** X12: when no exception leaves the application, a response was sent
    and the last event of the run is the line after handling with the
    status code of that response. *)
Theorem logged_status_is_sent_status (request : Request) :
  raised (snd (app framework_handlers included_routes unmatched request))
  = None ->
  exists w response,
    app framework_handlers included_routes unmatched request
    = ((line_before request :: w
        ++ [line_after request (status_code response)])%list,
       {| sent := Some response; raised := None |}).
Proof.
  rewrite app_layers. unfold ServerErrorMiddleware.
  destruct (CORSMiddleware cors_config
              (inner_app framework_handlers included_routes unmatched)
              request) as [w [response | exc]] eqn:Hcors.
  - rewrite (log_requests_return _ _ _ _ Hcors). eauto.
  - rewrite (log_requests_raise _ _ _ _ Hcors).
    destruct (isinstance exc "Exception"); cbn; discriminate.
Qed.

End StackFacts.


(** X6, at a preflight request from an allowed origin and at one from
    another origin. *)
Lemma preflight_answered_by_cors_witness :
  (is_preflight
     (Scenario.preflight_from "http://localhost:3000" "POST") = true
   /\ fst (app Sample.framework_handlers Sample.included_routes
               Sample.unmatched
               (Scenario.preflight_from "http://localhost:3000" "POST"))
      = [LogRecord INFO "→ OPTIONS /api/tasks";
         LogRecord INFO "← OPTIONS /api/tasks → 200"])
  /\ (is_preflight
        (Scenario.preflight_from "https://example.org" "POST") = true
      /\ fst (app Sample.framework_handlers Sample.included_routes
                  Sample.unmatched
                  (Scenario.preflight_from "https://example.org" "POST"))
         = [LogRecord INFO "→ OPTIONS /api/tasks";
            LogRecord INFO "← OPTIONS /api/tasks → 400"]).
Proof.
  split; (split; [vm_compute; reflexivity |]).
  - rewrite (preflight_answered_by_cors Sample.framework_handlers
               Sample.included_routes Sample.unmatched
               (Scenario.preflight_from "http://localhost:3000" "POST"));
      vm_compute; reflexivity.
  - rewrite (preflight_answered_by_cors Sample.framework_handlers
               Sample.included_routes Sample.unmatched
               (Scenario.preflight_from "https://example.org" "POST"));
      vm_compute; reflexivity.
Defined.

(** X8, at a persistence error and at another error, both from an allowed
    origin. *)
Lemma error_responses_and_cors_witness :
  (exists response,
     sent (snd (app Sample.framework_handlers Sample.included_routes
                    Sample.unmatched
                    (Scenario.list_tasks_from "http://localhost:3000")))
     = Some response
     /\ get_header "access-control-allow-origin" (headers response)
        = Some "http://localhost:3000")
  /\ (exists response,
        sent (snd (app Sample.framework_handlers Sample.included_routes
                       Sample.unmatched Sample.create_task))
        = Some response
        /\ get_header "access-control-allow-origin" (headers response)
           = None).
Proof.
  split.
  - apply (error_responses_and_cors Sample.framework_handlers
             Sample.included_routes Sample.unmatched
             (Scenario.list_tasks_from "http://localhost:3000")
             "http://localhost:3000"
             [DbEvent (Execute "SELECT * FROM tasks")]
             Sample.OperationalError);
      vm_compute; reflexivity.
  - apply (error_responses_and_cors Sample.framework_handlers
             Sample.included_routes Sample.unmatched Sample.create_task
             "http://localhost:3000" [] Sample.ValueError);
      vm_compute; reflexivity.
Defined.

(** X9, at a request whose endpoint is interrupted. *)
Lemma base_exception_not_translated_witness :
  is_preflight Scenario.delete_tasks = false
  /\ router Scenario.included_routes Sample.unmatched Scenario.delete_tasks
     = ([], Raise Scenario.KeyboardInterrupt)
  /\ isinstance Scenario.KeyboardInterrupt "Exception" = false
  /\ app Sample.framework_handlers Scenario.included_routes Sample.unmatched
         Scenario.delete_tasks
     = ([line_before Scenario.delete_tasks],
        {| sent := None; raised := Some Scenario.KeyboardInterrupt |}).
Proof.
  do 3 (split; [vm_compute; reflexivity |]).
  apply (base_exception_not_translated Sample.framework_handlers
           Scenario.included_routes Sample.unmatched Scenario.delete_tasks
           [] Scenario.KeyboardInterrupt);
    vm_compute; reflexivity.
Defined.


(** X12, at a request whose persistence error is translated. *)
Lemma logged_status_is_sent_status_witness :
  raised (snd (app Sample.framework_handlers Sample.included_routes
                   Sample.unmatched Sample.list_tasks))
  = None
  /\ exists w response,
       app Sample.framework_handlers Sample.included_routes Sample.unmatched
           Sample.list_tasks
       = ((line_before Sample.list_tasks :: w
           ++ [line_after Sample.list_tasks (status_code response)])%list,
          {| sent := Some response; raised := None |}).
Proof.
  split; [vm_compute; reflexivity |].
  apply (logged_status_is_sent_status Sample.framework_handlers
           Sample.included_routes Sample.unmatched Sample.list_tasks).
  vm_compute. reflexivity.
Defined.


